(** * Quote of the Day: the search and save routines of [app.py]

    A shallow embedding of [search_quotes], [load_saved_quotes] and
    [save_quote].  The remote quote service, the quotes file, the Streamlit
    cache and the notices shown to the user are explicit state.

    Conventions of the embedding.
    - Strings are byte strings; [str.lower] maps the letters A-Z to a-z and
      leaves every other byte alone.
    - A JSON quote is a record with the three keys the program reads; the
      dicts built by the program itself ([params], the search result) are
      finite maps from key to value.
    - [@st.cache_data] on [search_quotes] is not modelled: the function body
      is what runs on a cache miss.  The cache of [load_saved_quotes] is
      modelled, because [save_quote] reads through it and clears it.
    - A table read from or written to [quotes.csv] is the list of its lines,
      each with the three columns as strings; writing a table and reading
      it back gives the same strings.
    - Of Streamlit only what the program asks of it is modelled: the values
      its widgets return are arguments, and what it puts on the page is
      returned; its own checks, such as that of unique widget keys, are
      not.
    - The [while] loop of [search_quotes] runs as long as the service keeps
      announcing further pages, so the loop carries fuel; running out of it
      is an outcome of its own and never a result. *)

From Stdlib Require Import ZArith Ascii String DecimalString List Bool Lia.
From stdpp Require Import base option list gmap strings fin_maps.

Local Open Scope string_scope.
Local Open Scope Z_scope.

(** ** Values *)

(** One entry of the [results] array of the service. *)
Record Quote := mkQuote { _id : string; content : string; author : string }.

(** The Python values stored in the dicts of the program. *)
Inductive PyVal :=
| VInt (n : Z)
| VStr (s : string)
| VBool (b : bool)
| VQuotes (qs : list Quote).

(** The body of a successful [GET /quotes]: [results['results']] and
    [results.get('totalPages')]. *)
Record Body := mkBody { results : list Quote; totalPages : option Z }.

(** What [requests.get] followed by [raise_for_status] and [json] gives:
    a body, or a [requests.RequestException] with its message. *)
Inductive Response :=
| Ok (body : Body)
| RequestException (e : string).

(** What Streamlit shows: [st.error] and [st.warning]. *)
Inductive Notice :=
| st_error (msg : string)
| st_warning (msg : string).

(** ** Strings: [str.lower] and [in] *)

Definition lower_ascii (c : ascii) : ascii :=
  let n := nat_of_ascii c in
  if (Nat.leb 65 n && Nat.leb n 90)%bool then ascii_of_nat (n + 32) else c.

Fixpoint lower (s : string) : string :=
  match s with
  | EmptyString => EmptyString
  | String c t => String (lower_ascii c) (lower t)
  end.

(** [needle in hay]: [needle] starts at some position of [hay]. *)
Fixpoint py_in (needle hay : string) : bool :=
  (String.prefix needle hay
   || match hay with
      | EmptyString => false
      | String _ t => py_in needle t
      end)%bool.

(** Truth value of a [str]: the empty string is false. *)
Definition str_truthy (s : string) : bool := negb (String.eqb s "").

(** ** The [author] argument *)

(** [author != "All Authors"]; [None] differs from every string. *)
Definition not_all_authors (author : option string) : bool :=
  match author with
  | Some a => negb (String.eqb a "All Authors")
  | None => true
  end.

(** [author and author != "All Authors"]. *)
Definition author_given (author : option string) : bool :=
  match author with
  | Some a => (str_truthy a && negb (String.eqb a "All Authors"))%bool
  | None => false
  end.

(** ** Searching *)

Section Search.

(** The service: a state and the answer it gives to one request. *)
Context {Remote : Type}.
Variable requests_get : Remote -> gmap string PyVal -> Response * Remote.

(** The part of the world [search_quotes] touches.  [exchanges] is the
    record of the requests sent so far with their answers, oldest first. *)
Record Net := mkNet {
  remote : Remote;
  exchanges : list (gmap string PyVal * Response);
  shown : list Notice
}.

Definition exchange (params : gmap string PyVal) (resp : Response)
    (r' : Remote) (w : Net) : Net :=
  {| remote := r'; exchanges := exchanges w ++ [(params, resp)]; shown := shown w |}.

Definition show (n : Notice) (w : Net) : Net :=
  {| remote := remote w; exchanges := exchanges w; shown := shown w ++ [n] |}.

(** The [params] dict of one iteration. *)
Definition build_params (author : option string) (page : Z) : gmap string PyVal :=
  let params : gmap string PyVal :=
    {[ "limit" := VInt 50; "maxLength" := VInt 1000; "page" := VInt page ]} in
  match author with
  | Some a => if author_given author then <["author" := VStr a]> params else params
  | None => params
  end.

(** How the [while] loop ends. *)
Inductive Loop :=
| Fetched (all_results : list Quote)
| Raised (e : string)
| OutOfFuel.

(** The [while] loop, entered with the current [page], [total_pages] and
    [all_results]. *)
Fixpoint fetch_pages (fuel : nat) (author : option string)
    (page total_pages : Z) (all_results : list Quote) (w : Net) : Loop * Net :=
  if ((page <=? total_pages) && ((page <=? 5) || not_all_authors author))%bool then
    match fuel with
    | O => (OutOfFuel, w)
    | S fuel' =>
        let params := build_params author page in
        match requests_get (remote w) params with
        | (RequestException e, r') =>
            (Raised e, exchange params (RequestException e) r' w)
        | (Ok body, r') =>
            fetch_pages fuel' author (page + 1)
              (default 1 (totalPages body))
              (all_results ++ results body)
              (exchange params (Ok body) r' w)
        end
    end
  else (Fetched all_results, w).

(** [search_quotes(query, author)]; [None] when the fuel ran out. *)
Definition search_quotes (fuel : nat) (query : string) (author : option string)
    (w : Net) : option (gmap string PyVal) * Net :=
  match fetch_pages fuel author 1 1 [] w with
  | (OutOfFuel, w') => (None, w')
  | (Raised e, w') =>
      (Some {[ "count" := VInt 0; "results" := VQuotes [] ]},
       show (st_error ("Error searching quotes: " +:+ e)) w')
  | (Fetched all_results, w') =>
      if str_truthy query then
        let filtered_results :=
          List.filter (fun quote => py_in (lower query) (lower (content quote)))
                      all_results in
        let filtered_results :=
          if author_given author then take 10 filtered_results
          else filtered_results in
        (Some {[ "count" := VInt (Z.of_nat (length filtered_results));
                 "results" := VQuotes filtered_results ]}, w')
      else
        (Some {[ "count" := VInt (Z.of_nat (length all_results));
                 "results" := VQuotes (if author_given author
                                       then take 10 all_results
                                       else all_results) ]}, w')
  end.

End Search.

Arguments mkNet {Remote} _ _ _.
Arguments remote {Remote} _.
Arguments exchanges {Remote} _.
Arguments shown {Remote} _.

(** A world in which nothing has been sent or shown yet. *)
Definition fresh {Remote : Type} (r : Remote) : Net := mkNet r [] [].

(** ** Reading the record of exchanges *)

Abbreviation Exchange := (gmap string PyVal * Response)%type.

Definition is_ok (resp : Response) : bool :=
  match resp with Ok _ => true | RequestException _ => false end.

(** The [page] and [author] entries of the requests sent, oldest first. *)
Definition sent_pages (log : list Exchange) : list (option PyVal) :=
  (fun ex => ex.1 !! "page") <$> log.

Definition sent_authors (log : list Exchange) : list (option PyVal) :=
  (fun ex => ex.1 !! "author") <$> log.

(** The pages [1 .. k] as they appear in [params]. *)
Definition page_numbers (from : Z) (k : nat) : list (option PyVal) :=
  (fun p => Some (VInt p)) <$> seqZ from (Z.of_nat k).

(** The items of the answered pages, in the order they were received. *)
Definition aggregated (log : list Exchange) : list Quote :=
  flat_map (fun ex => match ex.2 with
                      | Ok body => results body
                      | RequestException _ => []
                      end) log.

(** The value of [total_pages] after the exchanges of [log], when it was
    [total_pages] before them. *)
Definition next_total (total_pages : Z) (ex : Exchange) : Z :=
  match ex.2 with
  | Ok body => default 1 (totalPages body)
  | RequestException _ => total_pages
  end.

Definition latest_total (total_pages : Z) (log : list Exchange) : Z :=
  foldl next_total total_pages log.

(** The test of the [while] loop. *)
Definition continue (author : option string) (page total_pages : Z) : bool :=
  ((page <=? total_pages) && ((page <=? 5) || not_all_authors author))%bool.

(** The exchanges a run of the loop may add, entered at [page] with
    [total_pages]: each request is the one built for the current page, is
    sent only when the loop test holds, and a failure is the last one. *)
Fixpoint walk (author : option string) (page total_pages : Z)
    (log : list Exchange) : Prop :=
  match log with
  | [] => True
  | (params, resp) :: rest =>
      continue author page total_pages = true /\
      params = build_params author page /\
      match resp with
      | Ok body => walk author (page + 1) (default 1 (totalPages body)) rest
      | RequestException _ => rest = []
      end
  end.

(** A query matches a quote as the list comprehension tests it. *)
Definition matches (query : string) (q : Quote) : bool :=
  py_in (lower query) (lower (content q)).

(** [needle] occurs in [hay] when the case of letters is ignored. *)
Definition occurs_ignoring_case (needle hay : string) : Prop :=
  exists pre post : string, lower hay = pre +:+ lower needle +:+ post.

(** The service never announces more than [N] pages. *)
Definition announces_at_most {Remote : Type}
    (requests_get : Remote -> gmap string PyVal -> Response * Remote) (N : Z) : Prop :=
  forall r params body r',
    requests_get r params = (Ok body, r') -> default 1 (totalPages body) <= N.

(** ** Sample services *)

(** A service without state that holds the given pages and announces their
    number with every answer; a page beyond the last one is empty. *)
Definition page_of (params : gmap string PyVal) : Z :=
  match params !! "page" with
  | Some (VInt p) => p
  | _ => 1
  end.

Definition paged (pages : list (list Quote)) (r : unit)
    (params : gmap string PyVal) : Response * unit :=
  (Ok {| results := default [] (pages !! Z.to_nat (page_of params - 1));
         totalPages := Some (Z.of_nat (length pages)) |}, r).

(** A service that answers from a script, one answer per request, and
    refuses the connection once the script is used up. *)
Definition scripted (script : list Response) (params : gmap string PyVal)
    : Response * list Response :=
  match script with
  | resp :: rest => (resp, rest)
  | [] => (RequestException "Connection refused", [])
  end.

Definition by_author1 (n : string) : Quote :=
  {| _id := n; content := "Quote " +:+ n; author := "Author 1" |}.

(** The two pages of [test_search_quotes_pagination]. *)
Definition first_page : Body :=
  {| results := [by_author1 "1"; by_author1 "2"]; totalPages := Some 2 |}.
Definition second_page : Body :=
  {| results := [by_author1 "3"; by_author1 "4"]; totalPages := Some 2 |}.

(** The results of [MOCK_SEARCH_RESULTS]. *)
Definition MOCK_SEARCH_RESULTS : Body :=
  {| results :=
       [ {| _id := "1"; content := "First test quote about experience";
            author := "Author 1" |};
         {| _id := "2"; content := "Second quote by same author";
            author := "Author 1" |} ];
     totalPages := Some 1 |}.

(** Eleven quotes of one author on a single page. *)
Definition eleven : list Quote :=
  by_author1 <$> ["1"; "2"; "3"; "4"; "5"; "6"; "7"; "8"; "9"; "10"; "11"].

(** Six pages of one quote each; only the last one mentions the sea. *)
Definition six_pages : list (list Quote) :=
  [ [by_author1 "1"]; [by_author1 "2"]; [by_author1 "3"];
    [by_author1 "4"]; [by_author1 "5"];
    [ {| _id := "6"; content := "The Sea is calm"; author := "Author 1" |} ] ].

(** ** The quotes file *)

(** One line of [quotes.csv]. *)
Module SavedQuote.
Record t := mk { quote : string; author : string; date_saved : string }.
End SavedQuote.

(** What [pd.read_csv(QUOTES_FILE)] finds: no file, a table, or a file that
    cannot be read or parsed. *)
Inductive File :=
| Absent
| Csv (rows : list SavedQuote.t)
| Unreadable (e : string).

(** The part of the world [save_quote] touches.  [to_csv_error] is the
    exception [df.to_csv] would raise, if any; [clock] is what
    [datetime.now().strftime(...)] gives; [cache] is the memoised value of
    [load_saved_quotes]. *)
Record Disk := mkDisk {
  file : File;
  to_csv_error : option string;
  clock : string;
  cache : option (list SavedQuote.t);
  notices : list Notice
}.

Definition notify (n : Notice) (d : Disk) : Disk :=
  {| file := file d; to_csv_error := to_csv_error d; clock := clock d;
     cache := cache d; notices := notices d ++ [n] |}.

Definition memoise (df : list SavedQuote.t) (d : Disk) : Disk :=
  {| file := file d; to_csv_error := to_csv_error d; clock := clock d;
     cache := Some df; notices := notices d |}.

(** [df.to_csv(QUOTES_FILE, index=False)] followed by
    [st.cache_data.clear()], when the write succeeds. *)
Definition to_csv_and_clear (df : list SavedQuote.t) (d : Disk) : Disk :=
  {| file := Csv df; to_csv_error := to_csv_error d; clock := clock d;
     cache := None; notices := notices d |}.


(** [load_saved_quotes()]. *)
Definition load_saved_quotes (d : Disk) : list SavedQuote.t * Disk :=
  match cache d with
  | Some df => (df, d)
  | None =>
      match file d with
      | Csv rows => (rows, memoise rows d)
      | Absent => ([], memoise [] d)
      | Unreadable e =>
          ([], memoise [] (notify (st_error ("Error loading quotes: " +:+ e)) d))
      end
  end.

(** [(df['quote'] == quote) & (df['author'] == author)] on one row. *)
Definition same_pair (quote author : string) (row : SavedQuote.t) : bool :=
  (String.eqb (SavedQuote.quote row) quote && String.eqb (SavedQuote.author row) author)%bool.

(** [df[...].empty]. *)
Definition empty {A : Type} (df : list A) : bool :=
  match df with [] => true | _ :: _ => false end.

(** [save_quote(quote, author)]. *)
Definition save_quote (quote author : string) (d : Disk) : bool * Disk :=
  let '(df, d) := load_saved_quotes d in
  if empty (List.filter (same_pair quote author) df) then
    let new_quote := [SavedQuote.mk quote author (clock d)] in
    let df := (df ++ new_quote)%list in
    match to_csv_error d with
    | None => (true, to_csv_and_clear df d)
    | Some e => (false, notify (st_error ("Error saving quote: " +:+ e)) d)
    end
  else (false, notify (st_warning "This quote is already saved!") d).

(** The records of the store: the lines of the file. *)
Definition stored (d : Disk) : list SavedQuote.t :=
  match file d with
  | Csv rows => rows
  | Absent | Unreadable _ => []
  end.

(** How many records of the store carry the pair. *)
Definition copies (quote author : string) (d : Disk) : nat :=
  length (List.filter (same_pair quote author) (stored d)).

(** A memoised value, if there is one, is what [load_saved_quotes] would
    read from the file. *)
Definition coherent (d : Disk) : Prop :=
  cache d = None \/ cache d = Some (stored d).

(** The store of the fixture [mock_csv_file]. *)
Definition mock_csv_file : Disk :=
  {| file := Csv [SavedQuote.mk "Test quote" "Test Author" "2024-01-01 09:00:00"];
     to_csv_error := None;
     clock := "2024-01-01 10:00:00";
     cache := None;
     notices := [] |}.

(** No file yet, and a directory that cannot be written to. *)
Definition read_only_dir : Disk :=
  {| file := Absent;
     to_csv_error := Some "[Errno 13] Permission denied: 'quotes.csv'";
     clock := "2024-01-01 10:00:00";
     cache := None;
     notices := [] |}.

(** ** Showing quotes *)

(** What [display_quote] and the search tab put on the page, besides the
    notices: [st.markdown], [st.button], [st.success], [st.write],
    [st.caption] and [st.info]. *)
Inductive Element :=
| st_markdown (body : string)
| st_button (label key : string)
| st_success (msg : string)
| st_write (msg : string)
| st_caption (msg : string)
| st_info (msg : string).

(** [display_quote(quote_data, key_suffix)].  [clicked] tells, for the key
    of a button, what [st.button] returns in this run of the script.  The
    result holds the elements put on the page and whether [st.rerun()] was
    called, which ends the run. *)
Definition display_quote (quote_data : Quote) (key_suffix : string)
    (clicked : string -> bool) (d : Disk) : list Element * bool * Disk :=
  let shown :=
    [st_markdown ("### _" +:+ content quote_data +:+ "_");
     st_markdown ("**— " +:+ author quote_data +:+ "**")] in
  let '(df, d) := load_saved_quotes d in
  let is_saved :=
    negb (empty (List.filter (same_pair (content quote_data) (author quote_data)) df)) in
  if negb is_saved then
    let key := "save_" +:+ key_suffix in
    let shown := (shown ++ [st_button "Save Quote" key])%list in
    if clicked key then
      let '(saved, d) := save_quote (content quote_data) (author quote_data) d in
      if saved
      then ((shown ++ [st_success "Quote saved successfully!"])%list, true, d)
      else (shown, false, d)
    else (shown, false, d)
  else ((shown ++ [st_success "Quote already saved!"])%list, false, d).

(** [for quote in quotes: display_quote(quote, f"search_{quote['_id']}")];
    a call of [st.rerun()] ends the loop with the run. *)
Fixpoint display_quotes (quotes : list Quote) (clicked : string -> bool)
    (d : Disk) : list Element * bool * Disk :=
  match quotes with
  | [] => ([], false, d)
  | quote :: rest =>
      let '(shown, rerun, d) :=
        display_quote quote ("search_" +:+ _id quote) clicked d in
      if rerun then (shown, true, d)
      else
        let '(shown', rerun', d) := display_quotes rest clicked d in
        ((shown ++ shown')%list, rerun', d)
  end.

(** [str(n)] for a length. *)
Definition str_of_len (n : nat) : string :=
  NilEmpty.string_of_uint (Nat.to_uint n).

(** The search tab of [main], from the test that starts a search on: what
    it does given the values the widgets returned, [button] for the Search
    button, [search_query] for the text input and [selected_author] for the
    select box.  [None] when the search ran out of fuel. *)
Definition search_tab {Remote : Type}
    (requests_get : Remote -> gmap string PyVal -> Response * Remote)
    (fuel : nat) (button : bool) (search_query selected_author : string)
    (clicked : string -> bool) (w : Net) (d : Disk)
    : option (list Element * bool) * Net * Disk :=
  if (button || str_truthy search_query
      || negb (String.eqb selected_author "All Authors"))%bool then
    match search_quotes requests_get fuel search_query (Some selected_author) w with
    | (None, w) => (None, w, d)
    | (Some search_results, w) =>
        let quotes :=
          match search_results !! "results" with
          | Some (VQuotes qs) => qs
          | _ => []
          end in
        if negb (empty quotes) then
          let heading :=
            if (negb (String.eqb selected_author "All Authors")
                && str_truthy search_query)%bool then
              st_write ("Showing " +:+ str_of_len (length quotes) +:+ " quotes by "
                        +:+ selected_author +:+ " containing '" +:+ search_query
                        +:+ "'")
            else if negb (String.eqb selected_author "All Authors") then
              st_write ("Showing " +:+ str_of_len (length quotes) +:+ " quotes by "
                        +:+ selected_author)
            else
              st_write ("Found " +:+ str_of_len (length quotes)
                        +:+ " quotes containing '" +:+ search_query +:+ "'") in
          let caption :=
            if Nat.eqb (length quotes) 150 then
              st_caption "(Showing maximum number of results. Try a more specific search term for better results)"
            else if Nat.ltb 10 (length quotes) then
              st_caption ("(Showing all " +:+ str_of_len (length quotes)
                          +:+ " matching quotes)")
            else st_caption "(Search shows up to 10 results at a time)" in
          let '(shown, rerun, d) := display_quotes quotes clicked d in
          (Some (heading :: caption :: shown, rerun), w, d)
        else (Some ([st_info "No quotes found matching your criteria."], false), w, d)
    end
  else (Some ([], false), w, d).

(** ** Reading the store *)



(** Every answer of the service holds at most [n] quotes. *)
Definition pages_hold_at_most {Remote : Type}
    (requests_get : Remote -> gmap string PyVal -> Response * Remote) (n : nat) : Prop :=
  forall r params body r',
    requests_get r params = (Ok body, r') -> (length (results body) <= n)%nat.

(** The result of a search: its quotes and its count. *)
Definition quotes_of (res : gmap string PyVal) : list Quote :=
  match res !! "results" with
  | Some (VQuotes qs) => qs
  | _ => []
  end.

Definition count_of (res : gmap string PyVal) : Z :=
  match res !! "count" with
  | Some (VInt n) => n
  | _ => 0
  end.

(** More sample data. *)
Definition two_saved : Disk :=
  {| file := Csv [SavedQuote.mk "Test quote" "Test Author" "2024-01-01 09:00:00";
                  SavedQuote.mk "Quote 1" "Author 1" "2024-01-01 09:30:00"];
     to_csv_error := None;
     clock := "2024-01-01 10:00:00";
     cache := None;
     notices := [] |}.

Definition broken_file : Disk :=
  {| file := Unreadable "No columns to parse from file";
     to_csv_error := None;
     clock := "2024-01-01 10:00:00";
     cache := None;
     notices := [] |}.

(** The memoised table is older than the file. *)
Definition stale : Disk :=
  {| file := Csv [SavedQuote.mk "Test quote" "Test Author" "2024-01-01 09:00:00";
                  SavedQuote.mk "Quote 1" "Author 1" "2024-01-01 09:30:00"];
     to_csv_error := None;
     clock := "2024-01-01 10:00:00";
     cache := Some [SavedQuote.mk "Test quote" "Test Author" "2024-01-01 09:00:00"];
     notices := [] |}.


(** * Properties *)

(** ** Substrings *)

Lemma append_cons (c : ascii) (s t : string) :
  String c s +:+ t = String c (s +:+ t).
Proof. reflexivity. Qed.

Lemma prefix_spec (needle hay : string) :
  String.prefix needle hay = true <-> exists post, hay = needle +:+ post.
Proof.
  revert hay. induction needle as [|c needle IH]; intros hay; simpl.
  - split; [intros _; exists hay; reflexivity | destruct hay; reflexivity].
  - destruct hay as [|c' hay]; simpl.
    + split; [discriminate | intros [post H]; rewrite append_cons in H; discriminate].
    + destruct (ascii_dec c c') as [->|Hne].
      * rewrite IH. split; intros [post H]; exists post; rewrite append_cons in *; congruence.
      * split; [discriminate | intros [post H]; rewrite append_cons in H; congruence].
Qed.

Lemma py_in_prefix (needle hay : string) :
  String.prefix needle hay = true -> py_in needle hay = true.
Proof. destruct hay; cbn [py_in]; intros ->; reflexivity. Qed.

Lemma py_in_spec (needle hay : string) :
  py_in needle hay = true <-> exists pre post, hay = pre +:+ needle +:+ post.
Proof.
  split.
  - induction hay as [|c hay IH]; cbn [py_in]; rewrite orb_true_iff.
    + intros [H|H]; [|discriminate].
      apply prefix_spec in H as [post H]. exists EmptyString, post. exact H.
    + intros [H|H].
      * apply prefix_spec in H as [post H]. exists EmptyString, post. exact H.
      * destruct (IH H) as (pre & post & ->). exists (String c pre), post. reflexivity.
  - intros (pre & post & ->). induction pre as [|c pre IH].
    + change (py_in needle (needle +:+ post) = true).
      apply py_in_prefix, prefix_spec. eauto.
    + rewrite append_cons. cbn [py_in]. rewrite IH. apply orb_true_r.
Qed.

Lemma matches_spec (query : string) (q : Quote) :
  matches query q = true <-> occurs_ignoring_case query (content q).
Proof. unfold matches, occurs_ignoring_case. apply py_in_spec. Qed.


(** ** The parameters of a request *)

Lemma build_params_page (author : option string) (page : Z) :
  build_params author page !! "page" = Some (VInt page).
Proof.
  unfold build_params. destruct author as [a|]; [destruct (author_given _)|]; reflexivity.
Qed.

Lemma build_params_author (author : option string) (page : Z) :
  build_params author page !! "author" =
  if author_given author then VStr <$> author else None.
Proof.
  unfold build_params. destruct author as [a|]; [destruct (author_given _)|]; reflexivity.
Qed.

(** ** What a walk looks like *)

Lemma walk_requests author (log : list Exchange) : forall page total_pages,
  walk author page total_pages log ->
  log.*1 = build_params author <$> seqZ page (Z.of_nat (length log)).
Proof.
  induction log as [|[params resp] rest IH]; intros page tp Hw; [reflexivity|].
  destruct Hw as (_ & -> & Hrest).
  rewrite length_cons, Nat2Z.inj_succ, seqZ_cons by lia.
  rewrite Z.pred_succ, <- Z.add_1_r, !fmap_cons. cbn [fst]. f_equal.
  destruct resp as [body|e].
  - rewrite <- (IH _ _ Hrest). reflexivity.
  - subst rest. reflexivity.
Qed.

Lemma walk_sent_pages author (log : list Exchange) page total_pages :
  walk author page total_pages log ->
  sent_pages log = page_numbers page (length log).
Proof.
  intros Hw. unfold sent_pages, page_numbers.
  transitivity ((fun params : gmap string PyVal => params !! "page") <$> log.*1).
  - rewrite <- list_fmap_compose. reflexivity.
  - rewrite (walk_requests _ _ _ _ Hw), <- list_fmap_compose.
    apply list_fmap_ext. intros i p _. cbn. apply build_params_page.
Qed.

Lemma walk_sent_authors author (log : list Exchange) page total_pages :
  walk author page total_pages log ->
  sent_authors log =
  replicate (length log) (if author_given author then VStr <$> author else None).
Proof.
  revert page total_pages.
  induction log as [|[params resp] rest IH]; intros page tp Hw; [reflexivity|].
  destruct Hw as (_ & -> & Hrest). cbn. rewrite build_params_author. f_equal.
  destruct resp as [body|e].
  - apply (IH _ _ Hrest).
  - subst rest. reflexivity.
Qed.

(** Every request of a walk was sent because the loop test held for the
    number of pages known at that moment. *)
Lemma walk_licensed author (log : list Exchange) : forall page total_pages (i : nat),
  walk author page total_pages log ->
  (i < length log)%nat ->
  continue author (page + Z.of_nat i) (latest_total total_pages (take i log)) = true.
Proof.
  induction log as [|[params resp] rest IH]; intros page tp i Hw Hi; [simpl in Hi; lia|].
  destruct Hw as (Hc & _ & Hrest).
  destruct i as [|i]; [cbn; rewrite Z.add_0_r; exact Hc|].
  simpl in Hi. destruct resp as [body|e].
  - cbn [take latest_total foldl next_total snd].
    replace (page + Z.of_nat (S i)) with (page + 1 + Z.of_nat i) by lia.
    apply (IH _ _ _ Hrest). lia.
  - subst rest. simpl in Hi. lia.
Qed.

(** Only the last exchange of a walk can be a failure. *)
Lemma walk_failure_last author (log : list Exchange) : forall page total_pages i params e,
  walk author page total_pages log ->
  log !! i = Some (params, RequestException e) ->
  length log = S i.
Proof.
  induction log as [|[params' resp] rest IH]; intros page tp i params e Hw Hi; [discriminate|].
  destruct Hw as (_ & _ & Hrest). destruct i as [|i]; cbn in Hi.
  - injection Hi as -> ->. subst rest. reflexivity.
  - destruct resp as [body|e']; [|subst rest; discriminate].
    cbn. f_equal. apply (IH _ _ _ _ _ Hrest Hi).
Qed.

(** With "All Authors" a walk never goes beyond page 5. *)
Lemma walk_capped author (log : list Exchange) : forall page total_pages,
  not_all_authors author = false ->
  walk author page total_pages log ->
  log = [] \/ page + Z.of_nat (length log) <= 6.
Proof.
  induction log as [|[params resp] rest IH]; intros page tp Ha Hw; [left; reflexivity|right].
  destruct Hw as (Hc & _ & Hrest). unfold continue in Hc. rewrite Ha, orb_false_r in Hc.
  apply andb_true_iff in Hc as [_ Hc%Z.leb_le].
  destruct resp as [body|e].
  - destruct (IH _ _ Ha Hrest) as [->|H]; cbn [length] in *; lia.
  - subst rest. cbn [length]. lia.
Qed.

(** ** The loop *)

Section SearchFacts.

Context {Remote : Type}.
Variable requests_get : Remote -> gmap string PyVal -> Response * Remote.

(** What one run of the loop adds to the record of exchanges, and how the
    way it ends shows there. *)
Lemma fetch_pages_spec fuel author : forall page total_pages acc w out w',
  fetch_pages requests_get fuel author page total_pages acc w = (out, w') ->
  exists new : list Exchange,
    exchanges w' = (exchanges w ++ new)%list /\
    shown w' = shown w /\
    walk author page total_pages new /\
    match out with
    | Fetched all_results =>
        all_results = (acc ++ aggregated new)%list /\
        forallb (fun ex => is_ok ex.2) new = true /\
        continue author (page + Z.of_nat (length new))
                 (latest_total total_pages new) = false
    | Raised e => exists params, last new = Some (params, RequestException e)
    | OutOfFuel =>
        length new = fuel /\ forallb (fun ex => is_ok ex.2) new = true
    end.
Proof.
  induction fuel as [|fuel IH]; intros page tp acc w out w' H;
    cbn [fetch_pages] in H; fold (continue author page tp) in H;
    destruct (continue author page tp) eqn:Hc.
  - injection H as <- <-. exists []. rewrite app_nil_r. repeat split; reflexivity.
  - injection H as <- <-. exists []. rewrite !app_nil_r, Z.add_0_r.
    repeat split; try reflexivity. exact Hc.
  - destruct (requests_get (remote w) (build_params author page)) as [[body|e] r'].
    + apply IH in H as (new & Hlog & Hshown & Hwalk & Hout).
      exists ((build_params author page, Ok body) :: new).
      split; [rewrite Hlog; cbn; rewrite <- app_assoc; reflexivity|].
      split; [exact Hshown|].
      split; [cbn [walk]; auto|].
      destruct out as [all_results|e|].
      * destruct Hout as (-> & Hok & Hstop). split; [|split].
        -- cbn. rewrite <- app_assoc. reflexivity.
        -- cbn. exact Hok.
        -- cbn [length latest_total foldl next_total snd].
           replace (page + Z.of_nat (S (length new)))
             with (page + 1 + Z.of_nat (length new)) by lia.
           exact Hstop.
      * destruct Hout as [params Hlast]. exists params.
        rewrite last_cons, Hlast. reflexivity.
      * destruct Hout as [Hlen Hok]. split; [cbn; f_equal; exact Hlen|exact Hok].
    + injection H as <- <-.
      exists [(build_params author page, RequestException e)].
      repeat split; try reflexivity; cbn; eauto.
  - injection H as <- <-. exists []. rewrite !app_nil_r, Z.add_0_r.
    repeat split; try reflexivity. exact Hc.
Qed.

(** On a service that never announces more than [N] pages the loop ends
    within [max 1 N] requests. *)
Lemma fetch_pages_enough N fuel author : forall page total_pages acc w,
  announces_at_most requests_get N ->
  total_pages <= Z.max 1 N ->
  Z.max 1 N - page < Z.of_nat fuel ->
  (fetch_pages requests_get fuel author page total_pages acc w).1 <> OutOfFuel.
Proof.
  intros page tp acc w HN. revert page tp acc w.
  induction fuel as [|fuel IH]; intros page tp acc w Htp Hfuel;
    cbn [fetch_pages]; fold (continue author page tp);
    destruct (continue author page tp) eqn:Hc; try discriminate.
  - unfold continue in Hc. apply andb_true_iff in Hc as [Hc%Z.leb_le _]. lia.
  - destruct (requests_get (remote w) (build_params author page))
      as [[body|e] r'] eqn:Hget; [|discriminate].
    pose proof (HN _ _ _ _ Hget) as Hle.
    unfold continue in Hc. apply andb_true_iff in Hc as [Hc%Z.leb_le _].
    apply IH; lia.
Qed.

(** With "All Authors" it ends within five requests, whatever the service
    announces. *)
Lemma fetch_pages_enough_all fuel author : forall page total_pages acc w,
  not_all_authors author = false ->
  5 - page < Z.of_nat fuel ->
  (fetch_pages requests_get fuel author page total_pages acc w).1 <> OutOfFuel.
Proof.
  intros page tp acc w Ha. revert page tp acc w.
  induction fuel as [|fuel IH]; intros page tp acc w Hfuel;
    cbn [fetch_pages]; fold (continue author page tp);
    destruct (continue author page tp) eqn:Hc; try discriminate.
  - unfold continue in Hc. rewrite Ha, orb_false_r in Hc.
    apply andb_true_iff in Hc as [_ Hc%Z.leb_le]. lia.
  - destruct (requests_get (remote w) (build_params author page))
      as [[body|e] r']; [|discriminate].
    apply IH. lia.
Qed.

(** The two ways [search_quotes] returns. *)
Lemma search_quotes_spec fuel query author r res w' :
  search_quotes requests_get fuel query author (fresh r) = (Some res, w') ->
  walk author 1 1 (exchanges w') /\
  ((exists params e,
      last (exchanges w') = Some (params, RequestException e) /\
      shown w' = [st_error ("Error searching quotes: " +:+ e)] /\
      res = {[ "count" := VInt 0; "results" := VQuotes [] ]})
   \/
   (forallb (fun ex => is_ok ex.2) (exchanges w') = true /\
    continue author (1 + Z.of_nat (length (exchanges w')))
             (latest_total 1 (exchanges w')) = false /\
    shown w' = [] /\
    res =
      if str_truthy query then
        let kept := List.filter (matches query) (aggregated (exchanges w')) in
        let kept := if author_given author then take 10 kept else kept in
        {[ "count" := VInt (Z.of_nat (length kept)); "results" := VQuotes kept ]}
      else
        {[ "count" := VInt (Z.of_nat (length (aggregated (exchanges w'))));
           "results" := VQuotes (if author_given author
                                 then take 10 (aggregated (exchanges w'))
                                 else aggregated (exchanges w')) ]})).
Proof.
  unfold search_quotes.
  destruct (fetch_pages requests_get fuel author 1 1 [] (fresh r)) as [out w1] eqn:Hloop.
  apply fetch_pages_spec in Hloop as (new & Hlog & Hshown & Hwalk & Hout).
  cbn in Hlog, Hshown.
  destruct out as [all_results|e|]; [| |discriminate].
  - destruct Hout as (-> & Hok & Hstop). cbn [app] in *.
    intros H. subst new.
    assert (w' = w1) as -> by (destruct (str_truthy query); congruence).
    split; [exact Hwalk|right].
    split; [exact Hok|]. split; [exact Hstop|]. split; [exact Hshown|].
    destruct (str_truthy query); injection H as <-; reflexivity.
  - destruct Hout as [params Hlast].
    intros H. injection H as <- <-. cbn. rewrite Hlog. split; [exact Hwalk|left].
    exists params, e. rewrite Hshown. repeat split. exact Hlast.
Qed.

(** [search_quotes] returns as soon as its loop has fuel enough. *)
Lemma search_quotes_returns fuel query author w :
  (fetch_pages requests_get fuel author 1 1 [] w).1 <> OutOfFuel ->
  exists res w', search_quotes requests_get fuel query author w = (Some res, w').
Proof.
  unfold search_quotes.
  destruct (fetch_pages requests_get fuel author 1 1 [] w) as [[all_results|e|] w1];
    cbn; intros H; [| |congruence].
  - destruct (str_truthy query); eauto.
  - eauto.
Qed.

End SearchFacts.

(** ** Searching: the pages fetched *)

Lemma author_given_not_all (author : option string) :
  author_given author = true -> not_all_authors author = true.
Proof.
  destruct author as [a|]; [|discriminate]. cbn.
  intros [_ H]%andb_true_iff. exact H.
Qed.

Lemma continue_uncapped author page total_pages :
  not_all_authors author = true ->
  continue author page total_pages = (page <=? total_pages).
Proof. intros H. unfold continue. rewrite H, orb_true_r, andb_true_r. reflexivity. Qed.

Lemma continue_capped author page total_pages :
  not_all_authors author = false ->
  continue author page total_pages = ((page <=? total_pages) && (page <=? 5))%bool.
Proof. intros H. unfold continue. rewrite H, orb_false_r. reflexivity. Qed.

Lemma all_ok_no_failure (log : list Exchange) params e :
  forallb (fun ex => is_ok ex.2) log = true ->
  (params, RequestException e) ∈ log -> False.
Proof.
  intros Hok Hin. rewrite forallb_forall in Hok.
  apply list_elem_of_In, Hok in Hin. discriminate.
Qed.

Lemma all_ok_not_last (log : list Exchange) params e :
  forallb (fun ex => is_ok ex.2) log = true ->
  last log = Some (params, RequestException e) -> False.
Proof. intros Hok Hlast%last_Some_elem_of. eapply all_ok_no_failure; eauto. Qed.

(** The dict [search_quotes] returns has two keys. *)
Lemma result_count (c qs : PyVal) :
  ({[ "count" := c; "results" := qs ]} : gmap string PyVal) !! "count" = Some c.
Proof. apply lookup_insert_eq. Qed.

Lemma result_results (c qs : PyVal) :
  ({[ "count" := c; "results" := qs ]} : gmap string PyVal) !! "results" = Some qs.
Proof. rewrite lookup_insert_ne by discriminate. apply lookup_singleton_eq. Qed.

Lemma result_truncated (c qs : PyVal) :
  ({[ "count" := c; "results" := qs ]} : gmap string PyVal) !! "truncated" = None.
Proof.
  rewrite lookup_insert_ne by discriminate. apply lookup_singleton_ne. discriminate.
Qed.

Lemma result_dom (c qs : PyVal) :
  dom ({[ "count" := c; "results" := qs ]} : gmap string PyVal)
  = ({[ "count"; "results" ]} : gset string).
Proof. rewrite dom_insert_L, dom_singleton_L. reflexivity. Qed.

Section SearchClaims.

Context {Remote : Type}.
Variable requests_get : Remote -> gmap string PyVal -> Response * Remote.

(** A search that returned sent at least one request. *)
Lemma search_quotes_sent fuel query author r res w' :
  search_quotes requests_get fuel query author (fresh r) = (Some res, w') ->
  (1 <= length (exchanges w'))%nat.
Proof.
  intros H. apply search_quotes_spec in H as (_ & [(params & e & Hlast & _)|(_ & Hstop & _)]).
  - destruct (exchanges w'); [discriminate|cbn; lia].
  - destruct (exchanges w'); [|cbn; lia].
    unfold continue in Hstop. cbn in Hstop. discriminate.
Qed.

(** For every [author] other than "All Authors" the loop follows the number
    of pages the service announces, and nothing else. *)
Lemma search_quotes_uncapped fuel query author r :
  not_all_authors author = true ->
  let run := search_quotes requests_get fuel query author (fresh r) in
  let log := exchanges run.2 in
  (forall N, announces_at_most requests_get N ->
             Z.max 1 N <= Z.of_nat fuel -> is_Some run.1) /\
  (is_Some run.1 ->
     sent_pages log = page_numbers 1 (length log) /\
     (1 <= length log)%nat /\
     (forall i : nat, (i < length log)%nat ->
        1 + Z.of_nat i <= latest_total 1 (take i log)) /\
     (forallb (fun ex => is_ok ex.2) log = true ->
        latest_total 1 log < 1 + Z.of_nat (length log))).
Proof.
  intros Ha run log. split.
  - intros N HN Hfuel.
    destruct (search_quotes_returns requests_get fuel query author (fresh r))
      as (res & w' & H).
    + apply (fetch_pages_enough _ N); [exact HN|lia..].
    + subst run. rewrite H. eauto.
  - intros [res Hres]. subst log.
    destruct run as [o w'] eqn:Hrun. cbn in Hres. subst o. cbn [snd].
    pose proof (search_quotes_sent _ _ _ _ _ _ Hrun) as Hsent.
    apply search_quotes_spec in Hrun as (Hwalk & Hend).
    split; [exact (walk_sent_pages _ _ _ _ Hwalk)|].
    split; [exact Hsent|]. split.
    + intros i Hi. pose proof (walk_licensed _ _ _ _ i Hwalk Hi) as Hc.
      rewrite continue_uncapped in Hc by exact Ha. apply Z.leb_le in Hc. exact Hc.
    + intros Hok. destruct Hend as [(params & e & Hlast & _)|(_ & Hstop & _)].
      * destruct (all_ok_not_last _ _ _ Hok Hlast).
      * rewrite continue_uncapped in Hstop by exact Ha.
        apply Z.leb_gt in Hstop. exact Hstop.
Qed.

(** C1, as the code has it.  A search for a specific author fetches the
    pages 1, 2, 3, ... in turn; page [i + 1] is requested only when the
    number of pages announced by the latest answer is at least [i + 1], and
    the loop stops, short of a failed request, as soon as the page after the
    last one fetched exceeds the latest number announced.  No limit of five
    pages enters: on a service that never announces more than [N] pages,
    [max 1 N] requests are enough for the search to return. *)
Theorem search_author_follows_total_pages fuel query author r :
  author_given author = true ->
  let run := search_quotes requests_get fuel query author (fresh r) in
  let log := exchanges run.2 in
  (forall N, announces_at_most requests_get N ->
             Z.max 1 N <= Z.of_nat fuel -> is_Some run.1) /\
  (is_Some run.1 ->
     sent_pages log = page_numbers 1 (length log) /\
     (1 <= length log)%nat /\
     (forall i : nat, (i < length log)%nat ->
        1 + Z.of_nat i <= latest_total 1 (take i log)) /\
     (forallb (fun ex => is_ok ex.2) log = true ->
        latest_total 1 log < 1 + Z.of_nat (length log))).
Proof.
  intros Ha. apply search_quotes_uncapped, author_given_not_all, Ha.
Qed.

(** C2, as the code has it.  With "All Authors" and a content term the
    search always returns within five requests: it fetches the pages 1, 2,
    ... in turn and stops after page 5, or earlier when the page after the
    last one fetched exceeds the latest number of pages announced.  When no
    request failed, the quotes returned are exactly the items of the fetched
    pages whose content contains the term, case ignored, with no limit on
    their number; so no matching item of a fetched page is missing. *)
Theorem search_all_authors_five_pages fuel query r :
  str_truthy query = true ->
  (5 <= fuel)%nat ->
  exists res w',
    search_quotes requests_get fuel query (Some "All Authors") (fresh r)
    = (Some res, w') /\
    let log := exchanges w' in
    sent_pages log = page_numbers 1 (length log) /\
    (1 <= length log <= 5)%nat /\
    (forall i : nat, (i < length log)%nat ->
       1 + Z.of_nat i <= latest_total 1 (take i log)) /\
    (forallb (fun ex => is_ok ex.2) log = true ->
       (length log = 5%nat \/ latest_total 1 log <= Z.of_nat (length log)) /\
       res !! "results"
       = Some (VQuotes (List.filter (matches query) (aggregated log))) /\
       forall q, q ∈ aggregated log ->
                 occurs_ignoring_case query (content q) ->
                 q ∈ List.filter (matches query) (aggregated log)).
Proof.
  intros Hq Hfuel.
  destruct (search_quotes_returns requests_get fuel query (Some "All Authors") (fresh r))
    as (res & w' & H).
  { apply fetch_pages_enough_all; [reflexivity|lia]. }
  exists res, w'. split; [exact H|]. cbn zeta.
  pose proof (search_quotes_sent _ _ _ _ _ _ H) as Hsent.
  apply search_quotes_spec in H as (Hwalk & Hend).
  pose proof (walk_capped (Some "All Authors") _ _ _ eq_refl Hwalk) as Hcap.
  split; [exact (walk_sent_pages _ _ _ _ Hwalk)|].
  split; [destruct Hcap as [Hnil|Hcap]; [rewrite Hnil in Hsent; cbn in Hsent|]; lia|].
  split.
  - intros i Hi. pose proof (walk_licensed _ _ _ _ i Hwalk Hi) as Hc.
    rewrite continue_capped in Hc by reflexivity.
    apply andb_true_iff in Hc as [Hc%Z.leb_le _]. exact Hc.
  - intros Hok. destruct Hend as [(params & e & Hlast & _)|(_ & Hstop & _ & ->)].
    { destruct (all_ok_not_last _ _ _ Hok Hlast). }
    rewrite Hq. cbn [author_given str_truthy String.eqb Ascii.eqb Bool.eqb andb negb].
    cbn zeta. split; [|split].
    + rewrite continue_capped in Hstop by reflexivity.
      apply andb_false_iff in Hstop as [Hstop%Z.leb_gt|Hstop%Z.leb_gt]; [right; lia|left].
      destruct Hcap as [Hnil|Hcap]; [rewrite Hnil in Hsent; cbn in Hsent|]; lia.
    + apply result_results.
    + intros q Hin Hocc. apply list_elem_of_In, filter_In.
      split; [apply list_elem_of_In, Hin|apply matches_spec, Hocc].
Qed.

(** C3, as the code has it.  The dict a search returns has the two keys
    [count] and [results] and no others: it carries no [truncated] flag. *)
Theorem search_result_has_no_truncated_flag fuel query author r res w' :
  search_quotes requests_get fuel query author (fresh r) = (Some res, w') ->
  dom res = ({[ "count"; "results" ]} : gset string) /\
  res !! "truncated" = None.
Proof.
  intros H.
  apply search_quotes_spec in H as (_ & [(_ & _ & _ & _ & ->)|(_ & _ & _ & ->)]).
  - split; [apply result_dom|apply result_truncated].
  - destruct (str_truthy query); cbn zeta;
      (split; [apply result_dom|apply result_truncated]).
Qed.

(** C5, as the code has it.  When a request of a search fails, that request
    is the last one sent and the search returns the dict with [count] 0 and
    an empty [results] list, whatever the pages fetched before held; the
    dict has no third key. *)
Theorem search_failure_gives_empty_result fuel query author r params e :
  let run := search_quotes requests_get fuel query author (fresh r) in
  (params, RequestException e) ∈ exchanges run.2 ->
  run.1 = Some {[ "count" := VInt 0; "results" := VQuotes [] ]} /\
  last (exchanges run.2) = Some (params, RequestException e).
Proof.
  cbn zeta. unfold search_quotes.
  destruct (fetch_pages requests_get fuel author 1 1 [] (fresh r)) as [out w1] eqn:Hloop.
  apply fetch_pages_spec in Hloop as (new & Hlog & _ & Hwalk & Hout).
  cbn in Hlog. destruct out as [all_results|e'|].
  - destruct Hout as (_ & Hok & _).
    destruct (str_truthy query); cbn [fst snd]; rewrite Hlog; intros Hin;
      destruct (all_ok_no_failure _ _ _ Hok Hin).
  - cbn [fst snd show exchanges]. rewrite Hlog. intros Hin. split; [reflexivity|].
    apply list_elem_of_lookup in Hin as [i Hi].
    pose proof (walk_failure_last _ _ _ _ _ _ _ Hwalk Hi) as Hlen.
    rewrite last_lookup, Hlen. exact Hi.
  - destruct Hout as [_ Hok]. cbn [fst snd]. rewrite Hlog. intros Hin.
    destruct (all_ok_no_failure _ _ _ Hok Hin).
Qed.

(** C6.  A search for a specific author, with or without a content term,
    returns at most ten quotes: the first ten of the aggregated items that
    pass the content filter, in the order they were received (none when a
    request failed).  On a service that never announces more than [N] pages
    the search does return, within [max 1 N] requests. *)
Theorem search_author_at_most_ten fuel query author r :
  author_given author = true ->
  let run := search_quotes requests_get fuel query author (fresh r) in
  let log := exchanges run.2 in
  (forall N, announces_at_most requests_get N ->
             Z.max 1 N <= Z.of_nat fuel -> is_Some run.1) /\
  (forall res, run.1 = Some res ->
     exists qs,
       res !! "results" = Some (VQuotes qs) /\
       (length qs <= 10)%nat /\
       (forallb (fun ex => is_ok ex.2) log = true ->
          qs = take 10 (if str_truthy query
                        then List.filter (matches query) (aggregated log)
                        else aggregated log))).
Proof.
  intros Ha run log. split.
  - apply (search_quotes_uncapped fuel query author r (author_given_not_all _ Ha)).
  - intros res Hres. subst log.
    destruct run as [o w'] eqn:Hrun. cbn in Hres. subst o. cbn [snd].
    apply search_quotes_spec in Hrun
      as (_ & [(params & e & Hlast & _ & ->)|(_ & _ & _ & ->)]).
    + exists []. split; [apply result_results|]. split; [cbn; lia|].
      intros Hok. destruct (all_ok_not_last _ _ _ Hok Hlast).
    + rewrite Ha. destruct (str_truthy query); cbn zeta;
        (eexists; split; [apply result_results|];
         split; [rewrite length_take; lia|reflexivity]).
Qed.


(** C10.  Called without an author, a search fetches the pages 1, 2, ... in
    turn for as long as the latest answer announces a further page, with no
    limit of five pages; no request carries an [author] parameter; and when
    no request failed the quotes returned are all aggregated items that pass
    the content filter, however many they are, with or without a term.  On
    a service that never announces more than [N] pages the search returns
    within [max 1 N] requests. *)
Theorem search_without_author fuel query r :
  let run := search_quotes requests_get fuel query None (fresh r) in
  let log := exchanges run.2 in
  (forall N, announces_at_most requests_get N ->
             Z.max 1 N <= Z.of_nat fuel -> is_Some run.1) /\
  (forall res, run.1 = Some res ->
     sent_pages log = page_numbers 1 (length log) /\
     (forall i : nat, (i < length log)%nat ->
        1 + Z.of_nat i <= latest_total 1 (take i log)) /\
     sent_authors log = replicate (length log) None /\
     (forallb (fun ex => is_ok ex.2) log = true ->
        latest_total 1 log < 1 + Z.of_nat (length log) /\
        res !! "results"
        = Some (VQuotes (if str_truthy query
                         then List.filter (matches query) (aggregated log)
                         else aggregated log)))).
Proof.
  intros run log.
  destruct (search_quotes_uncapped fuel query None r eq_refl) as [Hret Hpages].
  split; [exact Hret|].
  intros res Hres. fold run in Hpages. fold log in Hpages.
  destruct (Hpages (ex_intro _ res Hres)) as (Hsent & _ & Hlic & Hstop).
  split; [exact Hsent|]. split; [exact Hlic|].
  subst log. destruct run as [o w'] eqn:Hrun. cbn in Hres. subst o. cbn [snd] in *.
  apply search_quotes_spec in Hrun as (Hwalk & Hend).
  split; [exact (walk_sent_authors _ _ _ _ Hwalk)|].
  intros Hok. split; [exact (Hstop Hok)|].
  destruct Hend as [(params & e & Hlast & _)|(_ & _ & _ & ->)].
  { destruct (all_ok_not_last _ _ _ Hok Hlast). }
  destruct (str_truthy query); cbn zeta; apply result_results.
Qed.

End SearchClaims.

(** ** Saving *)

Lemma load_saved_quotes_spec (d : Disk) :
  coherent d ->
  exists d1,
    load_saved_quotes d = (stored d, d1) /\
    file d1 = file d /\ to_csv_error d1 = to_csv_error d /\ clock d1 = clock d /\
    cache d1 = Some (stored d) /\
    exists shown_by_load, notices d1 = (notices d ++ shown_by_load)%list.
Proof.
  intros Hd. unfold load_saved_quotes. unfold coherent in Hd.
  destruct (cache d) as [df|] eqn:Hcache.
  - destruct Hd as [Hd|Hd]; [discriminate|]. injection Hd as ->.
    exists d. repeat split; try assumption. exists []. rewrite app_nil_r. reflexivity.
  - unfold stored. destruct (file d) as [|rows|e] eqn:Hfile; eexists;
      (split; [reflexivity|]); cbn; repeat split; eauto;
      exists []; rewrite app_nil_r; reflexivity.
Qed.






Lemma stored_file (d d' : Disk) : file d' = file d -> stored d' = stored d.
Proof. unfold stored. intros ->. reflexivity. Qed.



(** [save_quote] keeps the memoised value in step with the file. *)
Lemma save_quote_coherent quote author (d : Disk) :
  coherent d -> coherent (save_quote quote author d).2.
Proof.
  intros Hd. unfold save_quote.
  destruct (load_saved_quotes_spec d Hd) as (d1 & -> & Hf & He & _ & Hc & _).
  assert (cache d1 = Some (stored d1)) as Hd1
    by (rewrite Hc; f_equal; symmetry; apply stored_file, Hf).
  destruct (empty _); [destruct (to_csv_error d1)|]; cbn [snd].
  - right. exact Hd1.
  - left. reflexivity.
  - right. exact Hd1.
Qed.



(** ** The sample services at work *)

Lemma paged_announces (pages : list (list Quote)) :
  announces_at_most (paged pages) (Z.of_nat (length pages)).
Proof. intros r params body r' [= <- _]. cbn. lia. Qed.

(** [test_search_quotes_pagination]: two pages of two quotes for one
    author give four quotes. *)
Example two_pages_of_two :
  let run := search_quotes scripted 5 "" (Some "Author 1")
               (fresh [Ok first_page; Ok second_page]) in
  run.1 = Some {[ "count" := VInt 4;
                  "results" := VQuotes (by_author1 <$> ["1"; "2"; "3"; "4"]) ]} /\
  sent_pages (exchanges run.2) = [Some (VInt 1); Some (VInt 2)].
Proof. split; vm_compute; reflexivity. Qed.

(** [test_search_quotes_content_filter]: one of the two quotes mentions
    experience. *)
Example one_quote_about_experience :
  (search_quotes scripted 5 "experience" (Some "All Authors")
     (fresh [Ok MOCK_SEARCH_RESULTS])).1
  = Some {[ "count" := VInt 1;
            "results" := VQuotes (take 1 (results MOCK_SEARCH_RESULTS)) ]}.
Proof. vm_compute. reflexivity. Qed.

(** Without a file the store is empty and nothing is shown. *)
Example load_without_file :
  (load_saved_quotes read_only_dir).1 = [] /\
  notices (load_saved_quotes read_only_dir).2 = [].
Proof. split; reflexivity. Qed.

(** C1 does not hold as stated: for the author "Author 1", on a service
    that announces six pages, the sixth page is fetched. *)
Lemma author_search_fetches_sixth_page :
  let run := search_quotes (paged six_pages) 10 "" (Some "Author 1") (fresh tt) in
  author_given (Some "Author 1") = true /\
  sent_pages (exchanges run.2)
  = [Some (VInt 1); Some (VInt 2); Some (VInt 3);
     Some (VInt 4); Some (VInt 5); Some (VInt 6)] /\
  (5 < length (exchanges run.2))%nat.
Proof. cbn zeta. split; [|split]; vm_compute; reflexivity. Qed.

Lemma search_author_follows_total_pages_witness :
  author_given (Some "Author 1") = true /\
  let run := search_quotes (paged six_pages) 6 "" (Some "Author 1") (fresh tt) in
  is_Some run.1 /\
  sent_pages (exchanges run.2) = page_numbers 1 6 /\
  latest_total 1 (exchanges run.2) < 7.
Proof.
  split; [reflexivity|]. cbn zeta.
  destruct (search_author_follows_total_pages (paged six_pages) 6 ""
              (Some "Author 1") tt eq_refl) as [Hret Hprops].
  assert (is_Some (search_quotes (paged six_pages) 6 "" (Some "Author 1") (fresh tt)).1)
    as Hsome by (apply (Hret 6); [apply (paged_announces six_pages)|cbn; lia]).
  destruct (Hprops Hsome) as (Hp & _ & _ & Hstop).
  split; [exact Hsome|]. split; [exact Hp|]. apply Hstop. reflexivity.
Defined.

(** C2 does not hold as stated: with "All Authors" and the term "sea", on a
    service that announces six pages, page 6 holds a quote that mentions the
    sea, yet five pages are fetched and no quote is returned. *)
Lemma all_authors_search_misses_page_six :
  let sea := {| _id := "6"; content := "The Sea is calm"; author := "Author 1" |} in
  let run := search_quotes (paged six_pages) 10 "sea" (Some "All Authors") (fresh tt) in
  (paged six_pages tt (build_params (Some "All Authors") 6)).1
  = Ok {| results := [sea]; totalPages := Some 6 |} /\
  matches "sea" sea = true /\
  sent_pages (exchanges run.2)
  = [Some (VInt 1); Some (VInt 2); Some (VInt 3); Some (VInt 4); Some (VInt 5)] /\
  run.1 = Some {[ "count" := VInt 0; "results" := VQuotes [] ]}.
Proof. cbn zeta. repeat split; vm_compute; reflexivity. Qed.

Lemma search_all_authors_five_pages_witness :
  str_truthy "sea" = true /\
  exists res w',
    search_quotes (paged six_pages) 5 "sea" (Some "All Authors") (fresh tt)
    = (Some res, w') /\
    (1 <= length (exchanges w') <= 5)%nat.
Proof.
  split; [reflexivity|].
  destruct (search_all_authors_five_pages (paged six_pages) 5 "sea" tt
              eq_refl (le_n 5)) as (res & w' & H & _ & Hlen & _).
  exists res, w'. split; [exact H|exact Hlen].
Defined.

(** C3 does not hold as stated: a search for a specific author that finds
    eleven quotes returns the first ten, and its result has no [truncated]
    entry that could be true. *)
Lemma capped_result_not_flagged :
  let run := search_quotes (paged [eleven]) 5 "" (Some "Author 1") (fresh tt) in
  author_given (Some "Author 1") = true /\
  (10 < length (aggregated (exchanges run.2)))%nat /\
  exists res,
    run.1 = Some res /\
    res !! "results" = Some (VQuotes (take 10 eleven)) /\
    res !! "truncated" = None.
Proof.
  cbn zeta. split; [reflexivity|]. split; [vm_compute; reflexivity|].
  eexists. split; [vm_compute; reflexivity|]. split; vm_compute; reflexivity.
Qed.

Lemma search_result_has_no_truncated_flag_witness :
  exists res w',
    search_quotes (paged [eleven]) 5 "" (Some "Author 1") (fresh tt) = (Some res, w') /\
    dom res = ({[ "count"; "results" ]} : gset string) /\
    res !! "truncated" = None.
Proof.
  pose (run := search_quotes (paged [eleven]) 5 "" (Some "Author 1") (fresh tt)).
  exists (default ∅ run.1), run.2.
  assert (search_quotes (paged [eleven]) 5 "" (Some "Author 1") (fresh tt)
          = (Some (default ∅ run.1), run.2)) as H by (vm_compute; reflexivity).
  split; [exact H|].
  exact (search_result_has_no_truncated_flag (paged [eleven]) 5 ""
           (Some "Author 1") tt _ _ H).
Defined.

(** C4 fails on the code: for a specific author and no content term,
    [count] is the number of aggregated items, eleven here, while ten quotes
    are returned. *)
Theorem count_exceeds_quotes_returned :
  (search_quotes (paged [eleven]) 5 "" (Some "Author 1") (fresh tt)).1
  = Some {[ "count" := VInt 11; "results" := VQuotes (take 10 eleven) ]} /\
  length (take 10 eleven) = 10%nat.
Proof. split; vm_compute; reflexivity. Qed.

(** C5 does not hold as stated: after a failed request the result has the
    two keys [count] and [results] only; it is not the dict with a third
    entry [truncated] set to false. *)
Lemma failed_search_result_has_two_keys :
  let run := search_quotes scripted 10 "" (Some "Author 1")
               (fresh [Ok first_page; RequestException "Read timed out"]) in
  exists res,
    run.1 = Some res /\
    res !! "truncated" = None /\
    res <> {[ "count" := VInt 0; "results" := VQuotes [];
              "truncated" := VBool false ]}.
Proof.
  cbn zeta. eexists. split; [vm_compute; reflexivity|].
  split; [vm_compute; reflexivity|].
  intros Heq. apply (f_equal (fun m : gmap string PyVal => m !! "truncated")) in Heq.
  vm_compute in Heq. discriminate.
Qed.

Lemma search_failure_gives_empty_result_witness :
  let run := search_quotes scripted 10 "" (Some "Author 1")
               (fresh [Ok first_page; RequestException "Read timed out"]) in
  (build_params (Some "Author 1") 2, RequestException "Read timed out")
    ∈ exchanges run.2 /\
  run.1 = Some {[ "count" := VInt 0; "results" := VQuotes [] ]}.
Proof.
  cbn zeta.
  assert ((build_params (Some "Author 1") 2, RequestException "Read timed out")
            ∈ exchanges (search_quotes scripted 10 "" (Some "Author 1")
                 (fresh [Ok first_page; RequestException "Read timed out"])).2)
    as Hin by (apply (list_elem_of_lookup_2 _ 1%nat); vm_compute; reflexivity).
  split; [exact Hin|].
  exact (proj1 (search_failure_gives_empty_result scripted 10 "" (Some "Author 1")
                  _ _ _ Hin)).
Defined.

Lemma search_author_at_most_ten_witness :
  author_given (Some "Author 1") = true /\
  exists res qs,
    (search_quotes (paged [eleven]) 1 "" (Some "Author 1") (fresh tt)).1 = Some res /\
    res !! "results" = Some (VQuotes qs) /\
    (length qs <= 10)%nat /\
    qs = take 10 eleven.
Proof.
  split; [reflexivity|].
  destruct (search_author_at_most_ten (paged [eleven]) 1 "" (Some "Author 1") tt
              eq_refl) as [Hret Hprops].
  destruct (Hret 1 (paged_announces [eleven]) ltac:(cbn; lia)) as [res Hres].
  destruct (Hprops res Hres) as (qs & Hqs & Hlen & Hfirst).
  exists res, qs. split; [exact Hres|]. split; [exact Hqs|]. split; [exact Hlen|].
  apply Hfirst. reflexivity.
Defined.





Lemma search_without_author_witness :
  let run := search_quotes (paged six_pages) 6 "sea" None (fresh tt) in
  exists res,
    run.1 = Some res /\
    sent_pages (exchanges run.2) = page_numbers 1 6 /\
    sent_authors (exchanges run.2) = replicate 6 None /\
    res !! "results" = Some (VQuotes (default [] (last six_pages))).
Proof.
  cbn zeta.
  destruct (search_without_author (paged six_pages) 6 "sea" tt) as [Hret Hprops].
  destruct (Hret 6 (paged_announces six_pages) ltac:(cbn; lia)) as [res Hres].
  destruct (Hprops res Hres) as (Hp & _ & Ha & Hok).
  exists res. split; [exact Hres|]. split; [exact Hp|]. split; [exact Ha|].
  exact (proj2 (Hok eq_refl)).
Defined.

(** * Further properties *)

(** ** Letter case *)

Lemma lower_ascii_idem (c : ascii) : lower_ascii (lower_ascii c) = lower_ascii c.
Proof. destruct c as [[] [] [] [] [] [] [] []]; reflexivity. Qed.

Lemma lower_idem (s : string) : lower (lower s) = lower s.
Proof.
  induction s as [|c s IH]; [reflexivity|].
  cbn [lower]. rewrite lower_ascii_idem, IH. reflexivity.
Qed.

Lemma str_truthy_lower (s : string) : str_truthy (lower s) = str_truthy s.
Proof. destruct s; reflexivity. Qed.

(** ** More on the requests of a search *)

Lemma build_params_limit (author : option string) (page : Z) :
  build_params author page !! "limit" = Some (VInt 50) /\
  build_params author page !! "maxLength" = Some (VInt 1000).
Proof.
  unfold build_params.
  destruct author as [a|]; [destruct (author_given _)|]; split; reflexivity.
Qed.

Lemma build_params_dom (author : option string) (page : Z) :
  dom (build_params author page)
  ⊆ ({[ "limit"; "maxLength"; "page"; "author" ]} : gset string).
Proof.
  unfold build_params.
  destruct author as [a|]; [destruct (author_given _)|];
    rewrite ?dom_insert_L, dom_singleton_L; intros x;
    rewrite !elem_of_union, !elem_of_singleton; tauto.
Qed.

Lemma filter_sublist {A : Type} (f : A -> bool) (l : list A) :
  List.filter f l `sublist_of` l.
Proof.
  induction l as [|x l IH]; cbn; [constructor|].
  destruct (f x); [apply sublist_skip|apply sublist_cons]; exact IH.
Qed.

Lemma all_ok_last (log : list Exchange) :
  forallb (fun ex => is_ok ex.2) log = true ->
  match last log with
  | Some (_, RequestException _) => False
  | _ => True
  end.
Proof.
  intros Hok. destruct (last log) as [[params [body|e]]|] eqn:Hlast; [exact I| |exact I].
  exact (all_ok_not_last _ _ _ Hok Hlast).
Qed.

Section SearchMore.

Context {Remote : Type}.
Variable requests_get : Remote -> gmap string PyVal -> Response * Remote.

(** Every exchange the loop records is an answer the service gave to the
    request recorded with it. *)
Lemma fetch_pages_answers fuel author : forall page total_pages acc w out w',
  fetch_pages requests_get fuel author page total_pages acc w = (out, w') ->
  Forall (fun ex => exists r r', requests_get r ex.1 = (ex.2, r')) (exchanges w) ->
  Forall (fun ex => exists r r', requests_get r ex.1 = (ex.2, r')) (exchanges w').
Proof.
  induction fuel as [|fuel IH]; intros page tp acc w out w' H Hw;
    cbn [fetch_pages] in H;
    destruct ((page <=? tp) && ((page <=? 5) || not_all_authors author))%bool;
    try (injection H as <- <-; exact Hw).
  destruct (requests_get (remote w) (build_params author page))
    as [[body|e] r'] eqn:Hget.
  - apply IH in H; [exact H|]. cbn. apply Forall_app. split; [exact Hw|].
    constructor; [eauto|constructor].
  - injection H as <- <-. cbn. apply Forall_app. split; [exact Hw|].
    constructor; [eauto|constructor].
Qed.

Lemma aggregated_length (n : nat) (log : list Exchange) :
  pages_hold_at_most requests_get n ->
  Forall (fun ex => exists r r', requests_get r ex.1 = (ex.2, r')) log ->
  (length (aggregated log) <= length log * n)%nat.
Proof.
  intros Hn Hlog. induction Hlog as [|[params resp] log (r & r' & Hget) _ IH];
    [cbn; lia|].
  cbn [aggregated flat_map snd fst] in *. rewrite length_app. cbn [length].
  fold (aggregated log). destruct resp as [body|e].
  - pose proof (Hn _ _ _ _ Hget). lia.
  - cbn. lia.
Qed.

(** What a search that returned holds, in terms of the pages it received. *)
Lemma search_quotes_outcome fuel query author r res w' :
  search_quotes requests_get fuel query author (fresh r) = (Some res, w') ->
  res !! "count" = Some (VInt (count_of res)) /\
  res !! "results" = Some (VQuotes (quotes_of res)) /\
  ((exists params e,
      last (exchanges w') = Some (params, RequestException e) /\
      quotes_of res = [] /\ count_of res = 0)
   \/
   (forallb (fun ex => is_ok ex.2) (exchanges w') = true /\
    quotes_of res
    = (let kept := if str_truthy query
                   then List.filter (matches query) (aggregated (exchanges w'))
                   else aggregated (exchanges w') in
       if author_given author then take 10 kept else kept) /\
    count_of res
    = Z.of_nat (length (if str_truthy query then quotes_of res
                        else aggregated (exchanges w'))))).
Proof.
  intros H.
  apply search_quotes_spec in H
    as (_ & [(params & e & Hlast & _ & ->)|(Hok & _ & _ & ->)]).
  - unfold count_of, quotes_of. rewrite result_count, result_results.
    split; [reflexivity|]. split; [reflexivity|]. left. eauto.
  - unfold count_of, quotes_of.
    destruct (str_truthy query); cbn zeta; rewrite result_count, result_results;
      (split; [reflexivity|]; split; [reflexivity|]; right; split; [exact Hok|]);
      split; reflexivity.
Qed.

(** X1.  Every request of a search asks for 50 quotes of at most 1000
    characters and for the pages 1, 2, ... in turn; it names the author
    exactly when one is given, and it has no other parameter: the content
    term is never sent to the service. *)
Theorem search_requests fuel query author r res w' :
  search_quotes requests_get fuel query author (fresh r) = (Some res, w') ->
  forall (i : nat) params resp,
    exchanges w' !! i = Some (params, resp) ->
    params !! "limit" = Some (VInt 50) /\
    params !! "maxLength" = Some (VInt 1000) /\
    params !! "page" = Some (VInt (1 + Z.of_nat i)) /\
    params !! "author" = (if author_given author then VStr <$> author else None) /\
    dom params ⊆ ({[ "limit"; "maxLength"; "page"; "author" ]} : gset string).
Proof.
  intros H i params resp Hi.
  apply search_quotes_spec in H as (Hwalk & _).
  apply walk_requests in Hwalk.
  assert ((exchanges w').*1 !! i = Some params) as Hp
    by (rewrite list_lookup_fmap, Hi; reflexivity).
  rewrite Hwalk, list_lookup_fmap in Hp.
  destruct (seqZ 1 (Z.of_nat (length (exchanges w'))) !! i) as [p|] eqn:Hseq;
    [|discriminate].
  apply lookup_seqZ in Hseq as [-> _]. injection Hp as <-.
  split; [apply build_params_limit|]. split; [apply build_params_limit|].
  split; [apply build_params_page|]. split; [apply build_params_author|].
  apply build_params_dom.
Qed.

(** X2.  With "All Authors" and no content term a search returns within
    five requests, and when none of them failed it returns every quote of
    the pages it fetched, in the order received, with their number as
    [count]: not the first page only, and not the first ten. *)
Theorem search_all_authors_without_term fuel r :
  (5 <= fuel)%nat ->
  exists res w',
    search_quotes requests_get fuel "" (Some "All Authors") (fresh r)
    = (Some res, w') /\
    sent_pages (exchanges w') = page_numbers 1 (length (exchanges w')) /\
    (1 <= length (exchanges w') <= 5)%nat /\
    (forallb (fun ex => is_ok ex.2) (exchanges w') = true ->
       quotes_of res = aggregated (exchanges w') /\
       count_of res = Z.of_nat (length (aggregated (exchanges w')))).
Proof.
  intros Hfuel.
  destruct (search_quotes_returns requests_get fuel "" (Some "All Authors") (fresh r))
    as (res & w' & H).
  { apply fetch_pages_enough_all; [reflexivity|lia]. }
  exists res, w'. split; [exact H|].
  pose proof (search_quotes_sent _ _ _ _ _ _ _ H) as Hsent.
  pose proof (search_quotes_outcome _ _ _ _ _ _ H) as (_ & _ & Hout).
  apply search_quotes_spec in H as (Hwalk & _).
  pose proof (walk_capped (Some "All Authors") _ _ _ eq_refl Hwalk) as Hcap.
  split; [exact (walk_sent_pages _ _ _ _ Hwalk)|].
  split; [destruct Hcap as [Hnil|Hcap]; [rewrite Hnil in Hsent; cbn in Hsent|]; lia|].
  intros Hok. destruct Hout as [(params & e & Hlast & _)|(_ & Hq & Hc)].
  { destruct (all_ok_not_last _ _ _ Hok Hlast). }
  split; [exact Hq|exact Hc].
Qed.

(** X3.  [count] never understates the quotes returned.  It is their number
    whenever a content term is given or no specific author is; for a
    specific author without a term it is the number of all quotes
    received. *)
Theorem search_count fuel query author r res w' :
  search_quotes requests_get fuel query author (fresh r) = (Some res, w') ->
  res !! "count" = Some (VInt (count_of res)) /\
  res !! "results" = Some (VQuotes (quotes_of res)) /\
  Z.of_nat (length (quotes_of res)) <= count_of res /\
  (str_truthy query = true \/ author_given author = false ->
   count_of res = Z.of_nat (length (quotes_of res))) /\
  (str_truthy query = false ->
   forallb (fun ex => is_ok ex.2) (exchanges w') = true ->
   count_of res = Z.of_nat (length (aggregated (exchanges w')))).
Proof.
  intros H.
  destruct (search_quotes_outcome _ _ _ _ _ _ H) as (Hc & Hr & Hout).
  split; [exact Hc|]. split; [exact Hr|].
  destruct Hout as [(params & e & Hlast & -> & ->)|(Hok & Hq & Hn)].
  - split; [cbn; lia|]. split; [reflexivity|].
    intros _ Hok. destruct (all_ok_not_last _ _ _ Hok Hlast).
  - destruct (str_truthy query) eqn:Hquery.
    + split; [lia|]. split; [intros _; exact Hn|discriminate].
    + cbn zeta in Hq. rewrite Hn, Hq. split; [|split].
      * destruct (author_given author); [rewrite length_take|]; lia.
      * intros [Ht|Ha]; [discriminate|]. rewrite Ha. reflexivity.
      * reflexivity.
Qed.

(** X4.  A search that returned shows one error notice with the message of
    the failure when its last request failed, and nothing otherwise. *)
Theorem search_notice fuel query author r res w' :
  search_quotes requests_get fuel query author (fresh r) = (Some res, w') ->
  shown w' =
  match last (exchanges w') with
  | Some (_, RequestException e) => [st_error ("Error searching quotes: " +:+ e)]
  | _ => []
  end.
Proof.
  intros H.
  apply search_quotes_spec in H
    as (_ & [(params & e & -> & -> & _)|(Hok%all_ok_last & _ & -> & _)]).
  - reflexivity.
  - destruct (last (exchanges w')) as [[params [body|e]]|]; [reflexivity| |reflexivity].
    destruct Hok.
Qed.

(** X5.  When the answer to the first request announces no further page
    (it has no [totalPages], or one not above 1), the search consists of
    that one request, whoever the author is. *)
Theorem search_single_page fuel query author r body r' :
  requests_get r (build_params author 1) = (Ok body, r') ->
  default 1 (totalPages body) <= 1 ->
  (1 <= fuel)%nat ->
  exists res w',
    search_quotes requests_get fuel query author (fresh r) = (Some res, w') /\
    exchanges w' = [(build_params author 1, Ok body)] /\
    remote w' = r' /\
    shown w' = [].
Proof.
  intros Hget Htotal Hfuel. destruct fuel as [|fuel]; [lia|].
  unfold search_quotes. cbn [fetch_pages].
  replace ((1 <=? 1) && ((1 <=? 5) || not_all_authors author))%bool with true
    by reflexivity.
  cbn [fresh remote]. rewrite Hget.
  assert (forall acc w,
            fetch_pages requests_get fuel author (1 + 1)
              (default 1 (totalPages body)) acc w = (Fetched acc, w)) as Hstop.
  { intros acc w.
    assert ((1 + 1 <=? default 1 (totalPages body)) = false) as Hc
      by (apply Z.leb_gt; lia).
    destruct fuel; cbn [fetch_pages]; rewrite Hc; reflexivity. }
  rewrite Hstop. destruct (str_truthy query); eexists _, _; (split; [reflexivity|]);
    repeat split.
Qed.

(** X6.  The case of the letters of the content term does not matter: two
    terms that are equal once lowered give the same search. *)
Theorem search_ignores_case_of_term fuel query query' author (w : Net) :
  lower query = lower query' ->
  search_quotes requests_get fuel query author w
  = search_quotes requests_get fuel query' author w.
Proof.
  intros Hlow. unfold search_quotes.
  assert (str_truthy query = str_truthy query') as ->
    by (rewrite <- (str_truthy_lower query), Hlow; apply str_truthy_lower).
  rewrite Hlow. reflexivity.
Qed.

(** X7.  The quotes of a result are quotes received from the service, in
    the order received: a search leaves quotes out but never adds,
    repeats or reorders any. *)
Theorem search_results_sublist fuel query author r res w' :
  search_quotes requests_get fuel query author (fresh r) = (Some res, w') ->
  quotes_of res `sublist_of` aggregated (exchanges w').
Proof.
  intros H.
  destruct (search_quotes_outcome _ _ _ _ _ _ H)
    as (_ & _ & [(params & e & _ & -> & _)|(_ & -> & _)]).
  - apply sublist_nil_l.
  - cbn zeta. destruct (author_given author), (str_truthy query);
      repeat (try reflexivity;
              first [ etransitivity; [apply sublist_take|]
                    | apply filter_sublist ]).
Qed.

(** X8.  With "All Authors", on a service whose answers hold at most [n]
    quotes each, a search returns at most [5 * n] quotes: 250 for the 50
    asked for. *)
Theorem search_all_authors_bounded fuel query r n :
  pages_hold_at_most requests_get n ->
  (5 <= fuel)%nat ->
  exists res w',
    search_quotes requests_get fuel query (Some "All Authors") (fresh r)
    = (Some res, w') /\
    (length (quotes_of res) <= 5 * n)%nat.
Proof.
  intros Hn Hfuel.
  destruct (search_quotes_returns requests_get fuel query (Some "All Authors") (fresh r))
    as (res & w' & H).
  { apply fetch_pages_enough_all; [reflexivity|lia]. }
  exists res, w'. split; [exact H|].
  assert (length (quotes_of res) <= length (aggregated (exchanges w')))%nat as Hsub.
  { destruct (search_quotes_outcome _ _ _ _ _ _ H)
      as (_ & _ & [(_ & _ & _ & -> & _)|(_ & -> & _)]); [cbn; lia|].
    cbn zeta. cbn [author_given str_truthy String.eqb Ascii.eqb Bool.eqb andb negb].
    destruct (str_truthy query); [apply List.filter_length_le|lia]. }
  assert (length (exchanges w') <= 5)%nat as Hlen.
  { pose proof H as (Hwalk & _)%search_quotes_spec.
    destruct (walk_capped (Some "All Authors") _ _ _ eq_refl Hwalk) as [->|Hcap];
      [cbn|]; lia. }
  assert (Forall (fun ex => exists r0 r1, requests_get r0 ex.1 = (ex.2, r1))
            (exchanges w')) as Hans.
  { unfold search_quotes in H.
    destruct (fetch_pages requests_get fuel (Some "All Authors") 1 1 [] (fresh r))
      as [out w1] eqn:Hloop.
    apply fetch_pages_answers in Hloop; [|constructor].
    destruct out as [all_results|e|]; [| |discriminate].
    - destruct (str_truthy query); injection H as _ <-; exact Hloop.
    - injection H as _ <-. exact Hloop. }
  pose proof (aggregated_length n _ Hn Hans). nia.
Qed.

End SearchMore.

(** ** More on the store *)




Lemma load_saved_quotes_coherent (d : Disk) :
  coherent d -> coherent (load_saved_quotes d).2.
Proof.
  intros Hd. destruct (load_saved_quotes_spec d Hd) as (d1 & -> & Hf & _ & _ & Hc & _).
  right. cbn. rewrite Hc. f_equal. symmetry. apply stored_file, Hf.
Qed.





(** X13.  [save_quote] writes the memoised table with the new record,
    whatever the file holds: records that reached the file after the table
    was memoised are lost with the write. *)
Theorem save_quote_writes_memoised quote author (d : Disk) (df : list SavedQuote.t) :
  cache d = Some df ->
  empty (List.filter (same_pair quote author) df) = true ->
  to_csv_error d = None ->
  (save_quote quote author d).1 = true /\
  file (save_quote quote author d).2
  = Csv (df ++ [SavedQuote.mk quote author (clock d)]).
Proof.
  intros Hc Hnew Hw. unfold save_quote, load_saved_quotes.
  rewrite Hc, Hnew, Hw. split; reflexivity.
Qed.

(** X14.  A quotes file that cannot be read counts as empty, so a save
    replaces it: the error of the read is shown, [True] is returned and the
    file then holds the new record alone. *)
Theorem save_quote_replaces_unreadable quote author (d : Disk) e :
  file d = Unreadable e ->
  cache d = None ->
  to_csv_error d = None ->
  let run := save_quote quote author d in
  run.1 = true /\
  file run.2 = Csv [SavedQuote.mk quote author (clock d)] /\
  notices run.2 = (notices d ++ [st_error ("Error loading quotes: " +:+ e)])%list.
Proof.
  intros Hf Hc Hw. unfold save_quote, load_saved_quotes.
  rewrite Hc, Hf. cbn. rewrite Hw. repeat split.
Qed.

(** X15.  Neither [load_saved_quotes] nor [save_quote] makes the memoised
    table disagree with the file. *)
Theorem store_stays_coherent quote author (d : Disk) :
  coherent d ->
  coherent (load_saved_quotes d).2 /\ coherent (save_quote quote author d).2.
Proof.
  intros Hd. split; [apply load_saved_quotes_coherent|apply save_quote_coherent]; exact Hd.
Qed.

(** ** Showing a quote *)








(** ** The search tab *)

Section SearchTab.

Context {Remote : Type}.
Variable requests_get : Remote -> gmap string PyVal -> Response * Remote.

(** X18.  For a specific author the search tab always searches, whether or
    not the Search button was pressed.  When quotes were found it announces
    their number, between 1 and 10, under the author's name, and the
    caption is always "(Search shows up to 10 results at a time)";
    otherwise it says that no quotes were found. *)
Theorem search_tab_for_author fuel button search_query selected_author clicked
    r (d : Disk) shown rerun w' d' :
  author_given (Some selected_author) = true ->
  search_tab requests_get fuel button search_query selected_author clicked
    (fresh r) d = (Some (shown, rerun), w', d') ->
  (1 <= length (exchanges w'))%nat /\
  (shown = [st_info "No quotes found matching your criteria."]
   \/ exists (n : nat) rest,
        (1 <= n <= 10)%nat /\
        shown
        = st_write
            (if str_truthy search_query
             then "Showing " +:+ str_of_len n +:+ " quotes by " +:+ selected_author
                  +:+ " containing '" +:+ search_query +:+ "'"
             else "Showing " +:+ str_of_len n +:+ " quotes by " +:+ selected_author)
          :: st_caption "(Search shows up to 10 results at a time)"
          :: rest).
Proof.
  intros Ha. pose proof Ha as [_ Hne]%andb_true_iff.
  unfold search_tab. rewrite Hne, orb_true_r.
  destruct (search_quotes requests_get fuel search_query (Some selected_author)
              (fresh r)) as [[res|] w1] eqn:Hs; [|discriminate].
  pose proof (search_quotes_sent _ _ _ _ _ _ _ Hs) as Hsent.
  assert (length (quotes_of res) <= 10)%nat as Hlen.
  { destruct (search_quotes_outcome _ _ _ _ _ _ _ Hs)
      as (_ & _ & [(_ & _ & _ & -> & _)|(_ & -> & _)]); [cbn; lia|].
    cbn zeta. rewrite Ha, length_take. lia. }
  fold (quotes_of res). destruct (empty (quotes_of res)) eqn:Hempty; cbn [negb].
  - intros [= <- <- <- <-]. split; [exact Hsent|left; reflexivity].
  - destruct (display_quotes (quotes_of res) clicked d) as [[shown1 rerun1] d1].
    intros [= <- <- <- <-]. split; [exact Hsent|right].
    exists (length (quotes_of res)), shown1.
    split; [destruct (quotes_of res); [discriminate|cbn [length] in *; lia]|].
    cbn [andb].
    assert (Nat.eqb (length (quotes_of res)) 150 = false) as ->
      by (apply Nat.eqb_neq; lia).
    assert (Nat.ltb 10 (length (quotes_of res)) = false) as ->
      by (apply Nat.ltb_ge; lia).
    destruct (str_truthy search_query); reflexivity.
Qed.


End SearchTab.

(** ** The further properties on the sample data *)

Lemma six_pages_hold_one : pages_hold_at_most (paged six_pages) 1.
Proof.
  intros r params body r' [= <- _]. cbn [results].
  destruct (Z.to_nat (page_of params - 1)) as [|[|[|[|[|[|n]]]]]];
    cbn -[Nat.le]; try lia.
  destruct n; cbn; lia.
Qed.


Lemma search_requests_witness :
  exists res w' params resp,
    search_quotes (paged [eleven]) 5 "" (Some "Author 1") (fresh tt) = (Some res, w') /\
    exchanges w' !! 0%nat = Some (params, resp) /\
    params !! "limit" = Some (VInt 50) /\
    params !! "page" = Some (VInt 1) /\
    params !! "author" = Some (VStr "Author 1").
Proof.
  pose (run := search_quotes (paged [eleven]) 5 "" (Some "Author 1") (fresh tt)).
  assert (search_quotes (paged [eleven]) 5 "" (Some "Author 1") (fresh tt)
          = (Some (default ∅ run.1), run.2)) as H by (vm_compute; reflexivity).
  assert (exchanges run.2 !! 0%nat
          = Some (build_params (Some "Author 1") 1,
                  Ok {| results := eleven; totalPages := Some 1 |})) as Hi
    by (vm_compute; reflexivity).
  destruct (search_requests (paged [eleven]) 5 "" (Some "Author 1") tt _ _ H
              0%nat _ _ Hi) as (Hl & _ & Hp & Ha & _).
  eexists _, _, _, _. split; [exact H|]. split; [exact Hi|].
  split; [exact Hl|]. split; [exact Hp|exact Ha].
Defined.

Lemma search_all_authors_without_term_witness :
  exists res w',
    search_quotes (paged six_pages) 5 "" (Some "All Authors") (fresh tt)
    = (Some res, w') /\
    (1 <= length (exchanges w') <= 5)%nat.
Proof.
  destruct (search_all_authors_without_term (paged six_pages) 5 tt (le_n 5))
    as (res & w' & H & _ & Hlen & _).
  exists res, w'. split; [exact H|exact Hlen].
Defined.

Lemma search_count_witness :
  exists res w',
    search_quotes (paged [eleven]) 5 "" (Some "Author 1") (fresh tt) = (Some res, w') /\
    Z.of_nat (length (quotes_of res)) <= count_of res /\
    count_of res = Z.of_nat (length (aggregated (exchanges w'))).
Proof.
  pose (run := search_quotes (paged [eleven]) 5 "" (Some "Author 1") (fresh tt)).
  assert (search_quotes (paged [eleven]) 5 "" (Some "Author 1") (fresh tt)
          = (Some (default ∅ run.1), run.2)) as H by (vm_compute; reflexivity).
  destruct (search_count (paged [eleven]) 5 "" (Some "Author 1") tt _ _ H)
    as (_ & _ & Hle & _ & Hall).
  eexists _, _. split; [exact H|]. split; [exact Hle|].
  apply Hall; reflexivity.
Defined.

Lemma search_notice_witness :
  exists res w',
    search_quotes scripted 10 "" (Some "Author 1")
      (fresh [Ok first_page; RequestException "Read timed out"]) = (Some res, w') /\
    shown w' = [st_error "Error searching quotes: Read timed out"].
Proof.
  pose (run := search_quotes scripted 10 "" (Some "Author 1")
                 (fresh [Ok first_page; RequestException "Read timed out"])).
  assert (search_quotes scripted 10 "" (Some "Author 1")
            (fresh [Ok first_page; RequestException "Read timed out"])
          = (Some (default ∅ run.1), run.2)) as H by (vm_compute; reflexivity).
  eexists _, _. split; [exact H|].
  exact (search_notice scripted 10 "" (Some "Author 1") _ _ _ H).
Defined.

Lemma search_single_page_witness :
  exists res w',
    search_quotes scripted 1 "experience" (Some "All Authors")
      (fresh [Ok MOCK_SEARCH_RESULTS]) = (Some res, w') /\
    exchanges w' = [(build_params (Some "All Authors") 1, Ok MOCK_SEARCH_RESULTS)].
Proof.
  destruct (search_single_page scripted 1 "experience" (Some "All Authors")
              [Ok MOCK_SEARCH_RESULTS] MOCK_SEARCH_RESULTS [] eq_refl
              (Z.le_refl 1) (le_n 1)) as (res & w' & H & Hlog & _).
  exists res, w'. split; [exact H|exact Hlog].
Defined.

Lemma search_ignores_case_of_term_witness :
  lower "SEA" = lower "Sea" /\
  search_quotes (paged six_pages) 6 "SEA" None (fresh tt)
  = search_quotes (paged six_pages) 6 "Sea" None (fresh tt).
Proof.
  split; [reflexivity|].
  exact (search_ignores_case_of_term (paged six_pages) 6 "SEA" "Sea" None (fresh tt)
           eq_refl).
Defined.

Lemma search_results_sublist_witness :
  exists res w',
    search_quotes (paged six_pages) 6 "sea" None (fresh tt) = (Some res, w') /\
    quotes_of res `sublist_of` aggregated (exchanges w').
Proof.
  pose (run := search_quotes (paged six_pages) 6 "sea" None (fresh tt)).
  assert (search_quotes (paged six_pages) 6 "sea" None (fresh tt)
          = (Some (default ∅ run.1), run.2)) as H by (vm_compute; reflexivity).
  eexists _, _. split; [exact H|].
  exact (search_results_sublist (paged six_pages) 6 "sea" None tt _ _ H).
Defined.

Lemma search_all_authors_bounded_witness :
  exists res w',
    search_quotes (paged six_pages) 5 "" (Some "All Authors") (fresh tt)
    = (Some res, w') /\
    (length (quotes_of res) <= 5 * 1)%nat.
Proof.
  exact (search_all_authors_bounded (paged six_pages) 5 "" tt 1
           six_pages_hold_one (le_n 5)).
Defined.




Lemma save_quote_writes_memoised_witness :
  copies "Quote 1" "Author 1" stale = 1%nat /\
  file (save_quote "New quote" "New Author" stale).2
  = Csv [SavedQuote.mk "Test quote" "Test Author" "2024-01-01 09:00:00";
         SavedQuote.mk "New quote" "New Author" "2024-01-01 10:00:00"] /\
  copies "Quote 1" "Author 1" (save_quote "New quote" "New Author" stale).2 = 0%nat.
Proof.
  split; [reflexivity|].
  destruct (save_quote_writes_memoised "New quote" "New Author" stale _
              eq_refl eq_refl eq_refl) as [_ Hfile].
  split; [exact Hfile|reflexivity].
Defined.

Lemma save_quote_replaces_unreadable_witness :
  (save_quote "New quote" "New Author" broken_file).1 = true /\
  file (save_quote "New quote" "New Author" broken_file).2
  = Csv [SavedQuote.mk "New quote" "New Author" "2024-01-01 10:00:00"].
Proof.
  destruct (save_quote_replaces_unreadable "New quote" "New Author" broken_file _
              eq_refl eq_refl eq_refl) as (Ht & Hf & _).
  split; [exact Ht|exact Hf].
Defined.

Lemma store_stays_coherent_witness :
  coherent mock_csv_file /\
  coherent (load_saved_quotes mock_csv_file).2 /\
  coherent (save_quote "New quote" "New Author" mock_csv_file).2.
Proof.
  split; [left; reflexivity|].
  exact (store_stays_coherent "New quote" "New Author" mock_csv_file
           (or_introl eq_refl)).
Defined.



Lemma search_tab_for_author_witness :
  author_given (Some "Author 1") = true /\
  exists shown rerun w' d',
    search_tab (paged [eleven]) 5 false "" "Author 1" (fun _ => false)
      (fresh tt) mock_csv_file = (Some (shown, rerun), w', d') /\
    (shown = [st_info "No quotes found matching your criteria."]
     \/ exists (n : nat) rest,
          (1 <= n <= 10)%nat /\
          shown
          = st_write ("Showing " +:+ str_of_len n +:+ " quotes by " +:+ "Author 1")
            :: st_caption "(Search shows up to 10 results at a time)"
            :: rest).
Proof.
  split; [reflexivity|].
  pose (run := search_tab (paged [eleven]) 5 false "" "Author 1" (fun _ => false)
                 (fresh tt) mock_csv_file).
  assert (search_tab (paged [eleven]) 5 false "" "Author 1" (fun _ => false)
            (fresh tt) mock_csv_file
          = (Some ((default ([], false) run.1.1).1, (default ([], false) run.1.1).2),
             run.1.2, run.2)) as H by (vm_compute; reflexivity).
  destruct (search_tab_for_author (paged [eleven]) 5 false "" "Author 1"
              (fun _ => false) tt mock_csv_file _ _ _ _ eq_refl H) as [_ Hshown].
  eexists _, _, _, _. split; [exact H|exact Hshown].
Defined.

